(** * tefs: selection of features from a trace of iteration results

    Shallow embedding of [src/tefs/utils.py] ([select_features] and
    [select_n_features]) and the properties of its stopping rules.

    Python values are modelled as far as the two functions look at them:
    - the numbers a score can be are Python's [int] (unbounded, [Z]) and
      [float] (IEEE 754 binary64, [spec_float] with its NaN and infinities);
      only comparisons are ever applied to them;
    - an iteration result is a record with the two entries ["TE"] and
      ["feature_scores"]; their values are dynamically typed, since the code
      checks them with [isinstance];
    - a [dict] of feature scores is an association list in insertion order,
      which is the order [keys()] and [values()] iterate in; its keys are
      integers and its values numbers, as [Dict[int, float]] says, and a
      Python dictionary has no key twice;
    - a raised exception is a value of [exn]; what a call produces is a
      [result].
    The [verbose] argument only gates calls to [print] and is left out. *)

From Stdlib Require Import ZArith String List Bool Lia.
From Stdlib Require Import SpecFloat.
From stdpp Require Import base option list strings gmap pretty.

Local Open Scope string_scope.
Local Open Scope Z_scope.

(** ** Exceptions and results *)

Inductive exn : Type :=
| AssertionError (msg : string)
| ValueError (msg : string)
| IndexError (msg : string)
| TypeError (msg : string)
| AttributeError (msg : string).

Inductive result (A : Type) : Type :=
| Ok (a : A)
| Raise (e : exn).

Arguments Ok {A} a.
Arguments Raise {A} e.

#[global] Instance result_ret : MRet result := fun A a => Ok a.
#[global] Instance result_bind : MBind result := fun A B f m =>
  match m with
  | Ok a => f a
  | Raise e => Raise e
  end.

(** [assert cond, msg] *)
Definition assert_that (cond : bool) (msg : string) : result unit :=
  if cond then Ok tt else Raise (AssertionError msg).

Definition require {A} (o : option A) (e : exn) : result A :=
  match o with
  | Some a => Ok a
  | None => Raise e
  end.

(** ** Numbers and their comparison *)

Inductive num : Type :=
| NInt (z : Z)
| NFloat (f : spec_float).

(** An [int] against a [float]: Python compares the exact values, without
    rounding the integer. A finite float [S754_finite s m e] is
    [(-1)^s * m * 2^e]. *)
Definition compare_int_float (z : Z) (f : spec_float) : option comparison :=
  match f with
  | S754_nan => None
  | S754_infinity s => Some (if s then Gt else Lt)
  | S754_zero _ => Some (z ?= 0)
  | S754_finite s m e =>
      let v := if s then Z.neg m else Z.pos m in
      Some (if 0 <=? e then z ?= v * 2 ^ e else z * 2 ^ (- e) ?= v)
  end.

Definition num_compare (a b : num) : option comparison :=
  match a, b with
  | NInt x, NInt y => Some (x ?= y)
  | NFloat x, NFloat y => SFcompare x y
  | NInt x, NFloat y => compare_int_float x y
  | NFloat x, NInt y => CompOpp <$> compare_int_float y x
  end.

(** [a > b], [a < b] and [a == b]; every one of them is [False] when an
    operand is NaN. *)
Definition py_gt (a b : num) : bool :=
  match num_compare a b with Some Gt => true | _ => false end.

Definition py_lt (a b : num) : bool :=
  match num_compare a b with Some Lt => true | _ => false end.

Definition py_eq (a b : num) : bool :=
  match num_compare a b with Some Eq => true | _ => false end.

(** The builtins [min] and [max] over an iterable: the first element is the
    candidate, and a later element replaces it when it is strictly smaller
    (strictly greater). *)
Fixpoint min_from (cur : num) (l : list num) : num :=
  match l with
  | [] => cur
  | x :: l' => min_from (if py_lt x cur then x else cur) l'
  end.

Fixpoint max_from (cur : num) (l : list num) : num :=
  match l with
  | [] => cur
  | x :: l' => max_from (if py_gt x cur then x else cur) l'
  end.

Definition py_min (l : list num) : result num :=
  match l with
  | [] => Raise (ValueError "min() arg is an empty sequence")
  | x :: l' => Ok (min_from x l')
  end.

Definition py_max (l : list num) : result num :=
  match l with
  | [] => Raise (ValueError "max() arg is an empty sequence")
  | x :: l' => Ok (max_from x l')
  end.

(** ** Values of the entries of an iteration result *)

Definition scores : Type := list (Z * num).

Inductive pyval : Type :=
| VInt (z : Z)
| VFloat (f : spec_float)
| VBool (b : bool)
| VStr (s : string)
| VNone
| VDict (d : scores).

(** [IterationResult]: the entries ["TE"] and ["feature_scores"]. *)
Record IterationResult : Type := {
  TE : pyval;
  feature_scores : pyval
}.

(** [isinstance(v, (float, int))]; [bool] is a subclass of [int]. *)
Definition as_number (v : pyval) : option num :=
  match v with
  | VInt z => Some (NInt z)
  | VFloat f => Some (NFloat f)
  | VBool b => Some (NInt (Z.b2z b))
  | _ => None
  end.

(** [isinstance(v, dict)] *)
Definition as_dict (v : pyval) : option scores :=
  match v with
  | VDict d => Some d
  | _ => None
  end.

Definition keys (d : scores) : list Z := d.*1.
Definition values (d : scores) : list num := d.*2.

(** [v.keys()] *)
Definition py_keys (v : pyval) : result (list Z) :=
  match v with
  | VDict d => Ok (keys d)
  | _ => Raise (AttributeError "object has no attribute 'keys'")
  end.

(** [len(v)] *)
Definition py_len (v : pyval) : result Z :=
  match v with
  | VDict d => Ok (Z.of_nat (length d))
  | VStr s => Ok (Z.of_nat (String.length s))
  | _ => Raise (TypeError "object has no len()")
  end.

(** [list(set(a) - set(b))]; the order of the elements of a Python set is
    not specified, so only the set of the elements of this list is meant. *)
Definition set_difference (a b : list Z) : list Z :=
  elements (list_to_set a ∖ list_to_set b : gset Z).

(** ** Loops *)

(** What one run of a loop body does: it leaves the function with
    [return v], or it goes on to the next element. *)
Inductive control (S R : Type) : Type :=
| Return (v : R)
| Next (st : S).

Arguments Return {S R} v.
Arguments Next {S R} st.

(** [for x in l: body], over the variables [st] the body assigns. *)
Fixpoint for_loop {S R A} (body : S → A → result (control S R))
    (st : S) (l : list A) : result (control S R) :=
  match l with
  | [] => Ok (Next st)
  | x :: l' =>
      c ← body st x;
      match c with
      | Return v => Ok (Return v)
      | Next st' => for_loop body st' l'
      end
  end.

(** [direction in ["forward", "backward"]] *)
Definition valid_direction (direction : string) : bool :=
  String.eqb direction "forward" || String.eqb direction "backward".

(** ** [select_features] *)

(** The variables the loop of [select_features] assigns. *)
Record loop_vars : Type := {
  stop : bool;
  initial_features : option (list Z)
}.

(** [iteration["TE"] > threshold] *)
Definition threshold_reached (te threshold : num) : bool :=
  py_gt te threshold.

(** The [if]/[elif] on the signs of the feature scores: whether its
    condition holds. [and] evaluates [min] or [max] only for the matching
    direction. *)
Definition sign_condition (direction : string) (fs : scores) : result bool :=
  if String.eqb direction "backward" then
    m ← py_min (values fs); Ok (py_gt m (NInt 0))
  else if String.eqb direction "forward" then
    m ← py_max (values fs); Ok (py_lt m (NInt 0))
  else Ok false.

Definition select_features_body (threshold : num) (direction : string)
    (st : loop_vars) (iteration : IterationResult)
    : result (control loop_vars (list Z)) :=
  te ← require (as_number (TE iteration))
         (AssertionError "TE score must be a number");
  fs ← require (as_dict (feature_scores iteration))
         (AssertionError "feature_scores must be a dictionary");
  let initial := default (keys fs) (initial_features st) in
  let stop1 := if threshold_reached te threshold then true else stop st in
  sign ← sign_condition direction fs;
  let stop2 := if (sign : bool) then true else stop1 in
  let st' := {| stop := stop2; initial_features := Some initial |} in
  if stop2 then
    if String.eqb direction "backward" then Ok (Return (keys fs))
    else if String.eqb direction "forward" then
      Ok (Return (set_difference initial (keys fs)))
    else Ok (Next st')
  else Ok (Next st').

(** The variables before the loop: [stop = False] and
    [initial_features = None]. *)
Definition start : loop_vars := {| stop := false; initial_features := None |}.

(** A Python function returns a list here, or [None] when it falls off its
    end. *)
Definition select_features (results : list IterationResult) (threshold : num)
    (direction : string) : result (option (list Z)) :=
  _ ← assert_that (valid_direction direction) "Invalid direction";
  c ← for_loop (select_features_body threshold direction) start results;
  match c with
  | Return l => Ok (Some l)
  | Next st =>
      if String.eqb direction "backward" then
        it ← require (last results) (IndexError "list index out of range");
        ks ← py_keys (feature_scores it);
        Ok (Some ks)
      else if String.eqb direction "forward" then
        l ← require (initial_features st)
              (TypeError "'NoneType' object is not iterable");
        Ok (Some l)
      else Ok None
  end.

(** ** [select_n_features] *)

Definition select_n_backward_body (n : Z) (_ : unit)
    (iteration : IterationResult) : result (control unit (list Z)) :=
  features_indexes ← py_keys (feature_scores iteration);
  if Z.of_nat (length features_indexes) =? n then Ok (Return features_indexes)
  else Ok (Next tt).

Definition select_n_forward_body (n num_total_features : Z)
    (initial_features : option (list Z)) (iteration : IterationResult)
    : result (control (option (list Z)) (list Z)) :=
  features_indexes ← py_keys (feature_scores iteration);
  let initial := default features_indexes initial_features in
  if Z.of_nat (length features_indexes) =? num_total_features - n then
    Ok (Return (set_difference initial features_indexes))
  else Ok (Next (Some initial)).

Definition select_n_features (results : list IterationResult) (n : Z)
    (direction : string) : result (option (list Z)) :=
  _ ← assert_that (valid_direction direction) "Invalid direction";
  first ← require (head results) (IndexError "list index out of range");
  num_total_features ← py_len (feature_scores first);
  _ ← assert_that (n <=? num_total_features)
        ("n must be <= " +:+ pretty num_total_features);
  _ ← assert_that (n >? 0) "n must be > 0";
  if String.eqb direction "backward" then
    c ← for_loop (select_n_backward_body n) tt results;
    match c with
    | Return l => Ok (Some l)
    | Next _ => Ok None
    end
  else if String.eqb direction "forward" then
    c ← for_loop (select_n_forward_body n num_total_features) None results;
    match c with
    | Return l => Ok (Some l)
    | Next initial_features =>
        l ← require initial_features
              (TypeError "'NoneType' object is not iterable");
        Ok (Some l)
    end
  else Ok None.

(** ** Sample data *)

(** The doubles 0.5, -0.5 and 0.3. *)
Definition f0_5 : num := NFloat (S754_finite false 4503599627370496 (-53)).
Definition fm0_5 : num := NFloat (S754_finite true 4503599627370496 (-53)).
Definition f0_3 : num := NFloat (S754_finite false 5404319552844595 (-54)).

Definition rec_of (te : Z) (fs : scores) : IterationResult :=
  {| TE := VInt te; feature_scores := VDict fs |}.

(** A trace of two records with scores of both signs and ["TE"] at most 5. *)
Definition mixed_first : IterationResult :=
  rec_of 3 [(0, NInt (-1)); (1, f0_5); (2, f0_3)].
Definition mixed_last : IterationResult :=
  rec_of 5 [(0, NInt (-1)); (2, f0_3)].
Definition mixed_trace : list IterationResult := [mixed_first; mixed_last].

(** ** Notions the properties are stated with *)

(** What a stop at a record with feature scores [fs] returns. *)
Definition stop_result (direction : string) (initial : list Z) (fs : scores)
    : list Z :=
  if String.eqb direction "backward" then keys fs
  else set_difference initial (keys fs).

(** A record the scan passes without stopping and without an error. *)
Definition quiet (threshold : num) (direction : string)
    (iteration : IterationResult) : Prop :=
  ∃ te fs,
    as_number (TE iteration) = Some te ∧
    as_dict (feature_scores iteration) = Some fs ∧
    threshold_reached te threshold = false ∧
    sign_condition direction fs = Ok false.

(** The initial universe: the keys of the first record. *)
Definition universe (results : list IterationResult) : option (list Z) :=
  it ← head results; keys <$> as_dict (feature_scores it).

(** The scan of [select_features] passes the records [before] and comes to
    the next record with the variables [st]. *)
Definition reaches (threshold : num) (direction : string)
    (before : list IterationResult) (st : loop_vars) : Prop :=
  valid_direction direction = true ∧
  for_loop (select_features_body threshold direction) start before
    = Ok (Next st).

(** The scan returns at the record [iteration] that follows [before]. *)
Definition stops_at (threshold : num) (direction : string)
    (before : list IterationResult) (iteration : IterationResult) : Prop :=
  ∃ l, for_loop (select_features_body threshold direction) start
         (before ++ [iteration]) = Ok (Return l).

(** The exception for a record that fails a check of the body: the two
    [assert]s, then [min] or [max] of no values. *)
Definition invalid_record_error (direction : string)
    (iteration : IterationResult) : exn :=
  match as_number (TE iteration) with
  | None => AssertionError "TE score must be a number"
  | Some _ =>
      match as_dict (feature_scores iteration) with
      | None => AssertionError "feature_scores must be a dictionary"
      | Some _ =>
          if String.eqb direction "backward"
          then ValueError "min() arg is an empty sequence"
          else ValueError "max() arg is an empty sequence"
      end
  end.

(** ["TE"] is not a number, or ["feature_scores"] is not a dictionary, or it
    is the empty dictionary. *)
Definition invalid_record (iteration : IterationResult) : Prop :=
  as_number (TE iteration) = None ∨
  as_dict (feature_scores iteration) = None ∨
  feature_scores iteration = VDict [].

(** Every identifier of [l] is a key of the first record. *)
Definition within_universe (results : list IterationResult) (l : list Z)
    : Prop :=
  ∃ u, universe results = Some u ∧ l ⊆ u.

(** [l] is the list of the keys of one of the records. *)
Definition keys_of_record (results : list IterationResult) (l : list Z)
    : Prop :=
  ∃ iteration fs,
    iteration ∈ results ∧
    as_dict (feature_scores iteration) = Some fs ∧
    l = keys fs.

(** A trace whose second record has a key the first one lacks. *)
Definition regrown_trace : list IterationResult :=
  [rec_of 0 [(0, NInt (-1))]; rec_of 0 [(5, NInt 1)]].

(** The trace of the three feature-score dictionaries [{}], [{0: 0.5}] and
    [{0: 0.5, 1: 0.3}], and the same records from the largest to the
    smallest. *)
Definition growing_trace : list IterationResult :=
  [rec_of 0 []; rec_of 0 [(0, f0_5)]; rec_of 0 [(0, f0_5); (1, f0_3)]].

Definition shrinking_trace : list IterationResult :=
  [rec_of 0 [(0, f0_5); (1, f0_3)]; rec_of 0 [(0, f0_5)]; rec_of 0 []].

(** A record whose feature scores are a dictionary of a size other than
    [n]. *)
Definition other_size (n : Z) (iteration : IterationResult) : Prop :=
  ∃ fs, feature_scores iteration = VDict fs ∧ Z.of_nat (length fs) ≠ n.

(** A record that passes the checks of the body of [select_features]:
    ["TE"] is a number and ["feature_scores"] a dictionary with an entry. *)
Definition checked_record (iteration : IterationResult) : Prop :=
  ∃ te fs,
    as_number (TE iteration) = Some te ∧
    as_dict (feature_scores iteration) = Some fs ∧
    fs ≠ [].

(** The floats NaN and +infinity. *)
Definition nan : num := NFloat S754_nan.
Definition pos_infinity : num := NFloat (S754_infinity false).


(** ** The comparison *)

Lemma py_gt_int (a b : Z) : py_gt (NInt a) (NInt b) = true ↔ b < a.
Proof.
  unfold py_gt; simpl.
  destruct (Z.compare_spec a b); split; intros;
    try lia; try discriminate; reflexivity.
Qed.

Lemma py_eq_not_gt (a b : num) : py_eq a b = true → py_gt a b = false.
Proof. unfold py_eq, py_gt. destruct (num_compare a b) as [[]|]; congruence. Qed.

Lemma py_eq_not_lt (a b : num) : py_eq a b = true → py_lt a b = false.
Proof. unfold py_eq, py_lt. destruct (num_compare a b) as [[]|]; congruence. Qed.

(** A ["TE"] that is NaN is a number for [isinstance] and exceeds no
    threshold. *)
Lemma py_gt_nan_l (b : num) : py_gt (NFloat S754_nan) b = false.
Proof. destruct b as [z|[]]; reflexivity. Qed.

(** [max] and [min] return one of the elements. *)
Lemma max_from_elem (l : list num) (cur : num) : max_from cur l ∈ cur :: l.
Proof.
  revert cur. induction l as [|x l IH]; intros cur; simpl.
  - left.
  - pose proof (IH (if py_gt x cur then x else cur)) as H.
    rewrite !elem_of_cons in *. destruct H as [H|H]; [|tauto].
    rewrite H. destruct (py_gt x cur); tauto.
Qed.

Lemma min_from_elem (l : list num) (cur : num) : min_from cur l ∈ cur :: l.
Proof.
  revert cur. induction l as [|x l IH]; intros cur; simpl.
  - left.
  - pose proof (IH (if py_lt x cur then x else cur)) as H.
    rewrite !elem_of_cons in *. destruct H as [H|H]; [|tauto].
    rewrite H. destruct (py_lt x cur); tauto.
Qed.

(** ** Loops over a prefix *)

Section for_loop.
Context {S R A : Type} (body : S → A → result (control S R)).

Lemma for_loop_app_next (l1 l2 : list A) (st st' : S) :
  for_loop body st l1 = Ok (Next st') →
  for_loop body st (l1 ++ l2) = for_loop body st' l2.
Proof.
  revert st. induction l1 as [|x l1 IH]; intros st H; simpl in *.
  - congruence.
  - destruct (body st x) as [[v|st1]|e]; simpl in *; try discriminate.
    apply IH, H.
Qed.

Lemma for_loop_snoc (l : list A) (x : A) (st st' : S) :
  for_loop body st l = Ok (Next st') →
  for_loop body st (l ++ [x]) = body st' x.
Proof.
  intros H. rewrite (for_loop_app_next _ _ _ _ H). simpl.
  destruct (body st' x) as [[v|st1]|e]; reflexivity.
Qed.
End for_loop.

(** ** The scan of [select_features] *)

Lemma valid_direction_cases (direction : string) :
  valid_direction direction = true →
  direction = "forward" ∨ direction = "backward".
Proof.
  unfold valid_direction. intros H. apply orb_true_iff in H.
  destruct H as [H|H]; apply String.eqb_eq in H; auto.
Qed.

(** The body on a record that passes its checks: the two conditions are
    joined by "or", and [stop] is still [False] when the scan goes on. *)
Lemma select_features_body_checked threshold direction st iteration te fs sign :
  valid_direction direction = true →
  stop st = false →
  as_number (TE iteration) = Some te →
  as_dict (feature_scores iteration) = Some fs →
  sign_condition direction fs = Ok sign →
  select_features_body threshold direction st iteration =
    let initial := default (keys fs) (initial_features st) in
    if threshold_reached te threshold || sign
    then Ok (Return (stop_result direction initial fs))
    else Ok (Next {| stop := false; initial_features := Some initial |}).
Proof.
  intros Hd Hs Hte Hfs Hsg. unfold select_features_body, stop_result.
  rewrite Hte, Hfs. simpl. rewrite Hsg, Hs. simpl.
  destruct (valid_direction_cases _ Hd) as [-> | ->];
    destruct (threshold_reached te threshold), sign; reflexivity.
Qed.

Lemma sign_condition_nonempty direction fs sign :
  valid_direction direction = true →
  sign_condition direction fs = Ok sign → fs ≠ [].
Proof.
  intros Hd H ->.
  destruct (valid_direction_cases _ Hd) as [-> | ->]; discriminate.
Qed.

Lemma scan_quiet threshold direction results st :
  valid_direction direction = true →
  stop st = false →
  Forall (quiet threshold direction) results →
  for_loop (select_features_body threshold direction) st results =
    Ok (Next (match results with
              | [] => st
              | _ :: _ =>
                  {| stop := false;
                     initial_features :=
                       match initial_features st with
                       | Some l => Some l
                       | None => universe results
                       end |}
              end)).
Proof.
  intros Hd Hs Hq. revert st Hs.
  induction Hq as [|it rest (te & fs & Hte & Hfs & Hth & Hsg) Hq IH];
    intros st Hs; [reflexivity|].
  cbn [for_loop].
  rewrite (select_features_body_checked _ _ _ _ _ _ _ Hd Hs Hte Hfs Hsg).
  rewrite Hth. cbn -[for_loop]. rewrite IH by reflexivity.
  unfold universe. cbn. rewrite Hfs. cbn.
  destruct rest; destruct (initial_features st); reflexivity.
Qed.

Lemma select_features_body_next threshold direction st iteration st' :
  valid_direction direction = true →
  select_features_body threshold direction st iteration = Ok (Next st') →
  stop st' = false.
Proof.
  intros Hd. unfold select_features_body.
  destruct (as_number (TE iteration)) as [te|]; [|discriminate].
  destruct (as_dict (feature_scores iteration)) as [fs|]; [|discriminate].
  cbn. destruct (sign_condition direction fs) as [sign|]; [|discriminate].
  cbn. destruct (valid_direction_cases _ Hd) as [-> | ->]; cbn;
    destruct sign, (threshold_reached te threshold), (stop st); cbn;
    intros [= <-]; reflexivity.
Qed.

Lemma scan_next_stop threshold direction results st st' :
  valid_direction direction = true →
  stop st = false →
  for_loop (select_features_body threshold direction) st results
    = Ok (Next st') →
  stop st' = false.
Proof.
  intros Hd. revert st. induction results as [|it rest IH]; intros st Hs.
  - intros [= <-]. exact Hs.
  - cbn [for_loop].
    destruct (select_features_body threshold direction st it)
      as [[l|st1]|e] eqn:Hb; cbn; try discriminate.
    apply IH. eapply select_features_body_next; eassumption.
Qed.

Lemma stops_at_checked threshold direction before st iteration te fs sign :
  reaches threshold direction before st →
  as_number (TE iteration) = Some te →
  as_dict (feature_scores iteration) = Some fs →
  sign_condition direction fs = Ok sign →
  stops_at threshold direction before iteration ↔
    threshold_reached te threshold || sign = true.
Proof.
  intros [Hd Hscan] Hte Hfs Hsg. unfold stops_at.
  rewrite (for_loop_snoc _ _ _ _ _ Hscan).
  assert (stop st = false) as Hs
    by (eapply scan_next_stop; [exact Hd| |exact Hscan]; reflexivity).
  rewrite (select_features_body_checked _ _ _ _ _ _ _ Hd Hs Hte Hfs Hsg).
  cbn. destruct (threshold_reached te threshold || sign); split.
  - reflexivity.
  - intros _. eexists. reflexivity.
  - intros [l Hl]. discriminate.
  - discriminate.
Qed.

(** X8. [select_features] returns a list whenever it returns: for no trace,
    threshold and direction does it return [None]. *)
Lemma select_features_returns_list results threshold direction :
  select_features results threshold direction ≠ Ok None.
Proof.
  unfold select_features.
  destruct (valid_direction direction) eqn:Hd; [|discriminate].
  cbn -[for_loop start].
  destruct (for_loop _ start results) as [[l|st]|e]; cbn; try discriminate.
  destruct (valid_direction_cases _ Hd) as [-> | ->]; cbn.
  - destruct (initial_features st); discriminate.
  - destruct (last results) as [it|]; [|discriminate]. cbn.
    destruct (feature_scores it); discriminate.
Qed.

(** ** The stop on the threshold *)

(** C1. When the scan comes to a record that passes the checks, it stops
    there exactly when ["TE"] is strictly greater than the threshold or the
    condition on the signs holds; so, the signs apart, exactly when
    [TE > threshold]. A ["TE"] equal to the threshold does not stop the
    scan. *)
Theorem threshold_stop_strict threshold direction before st iteration te fs sign :
  reaches threshold direction before st →
  as_number (TE iteration) = Some te →
  as_dict (feature_scores iteration) = Some fs →
  sign_condition direction fs = Ok sign →
  (stops_at threshold direction before iteration ↔
     py_gt te threshold = true ∨ sign = true) ∧
  (sign = false →
     (stops_at threshold direction before iteration ↔
        py_gt te threshold = true)) ∧
  (sign = false → py_eq te threshold = true →
     ¬ stops_at threshold direction before iteration).
Proof.
  intros Hr Hte Hfs Hsg.
  pose proof (stops_at_checked _ _ _ _ _ _ _ _ Hr Hte Hfs Hsg) as H.
  unfold threshold_reached in H. rewrite orb_true_iff in H.
  split; [exact H|]. split.
  - intros ->. rewrite H. split; [intros [?|?]; [assumption|discriminate]|auto].
  - intros -> Heq. rewrite H. rewrite (py_eq_not_gt _ _ Heq).
    intros [?|?]; discriminate.
Qed.

Lemma threshold_stop_strict_witness :
  reaches (NInt 5) "backward" [rec_of 3 [(0, NInt (-1)); (2, f0_3)]]
    {| stop := false; initial_features := Some [0; 2] |} ∧
  ¬ stops_at (NInt 5) "backward" [rec_of 3 [(0, NInt (-1)); (2, f0_3)]]
      (rec_of 5 [(0, NInt (-1)); (1, f0_5)]).
Proof.
  assert (reaches (NInt 5) "backward" [rec_of 3 [(0, NInt (-1)); (2, f0_3)]]
            {| stop := false; initial_features := Some [0; 2] |}) as Hr
    by (split; reflexivity).
  split; [exact Hr|].
  apply (threshold_stop_strict (NInt 5) "backward" _ _
           (rec_of 5 [(0, NInt (-1)); (1, f0_5)]) (NInt 5)
           [(0, NInt (-1)); (1, f0_5)] false Hr);
    reflexivity.
Defined.

(** ** The end of the trace *)

Lemma as_dict_Some v fs : as_dict v = Some fs → v = VDict fs.
Proof. destruct v; intros [= ->]; reflexivity. Qed.

Lemma keys_nonempty (fs : scores) : fs ≠ [] → keys fs ≠ [].
Proof. destruct fs; [congruence|discriminate]. Qed.

(** C2. On a trace whose records all pass without a stop, [select_features]
    with direction ["backward"] returns the keys of the last record, and
    this list is not empty. *)
Theorem backward_fallback_last threshold results iteration fs :
  last results = Some iteration →
  as_dict (feature_scores iteration) = Some fs →
  Forall (quiet threshold "backward") results →
  select_features results threshold "backward" = Ok (Some (keys fs)) ∧
  keys fs ≠ [].
Proof.
  intros Hlast Hfs Hq. split.
  - unfold select_features. cbn -[for_loop start].
    rewrite (scan_quiet threshold "backward" results start eq_refl eq_refl Hq).
    cbn. rewrite Hlast. cbn. rewrite (as_dict_Some _ _ Hfs). reflexivity.
  - apply keys_nonempty.
    rewrite Forall_forall in Hq.
    destruct (Hq iteration) as (te & fs' & _ & Hfs' & _ & Hsg).
    { apply last_Some_elem_of, Hlast. }
    rewrite Hfs in Hfs'. injection Hfs' as <-.
    eapply sign_condition_nonempty; [|exact Hsg]. reflexivity.
Qed.

Lemma mixed_trace_quiet direction :
  valid_direction direction = true →
  Forall (quiet (NInt 5) direction) mixed_trace.
Proof.
  intros Hd. repeat constructor.
  - exists (NInt 3), [(0, NInt (-1)); (1, f0_5); (2, f0_3)].
    destruct (valid_direction_cases _ Hd) as [-> | ->];
      repeat split; reflexivity.
  - exists (NInt 5), [(0, NInt (-1)); (2, f0_3)].
    destruct (valid_direction_cases _ Hd) as [-> | ->];
      repeat split; reflexivity.
Defined.

Lemma backward_fallback_last_witness :
  Forall (quiet (NInt 5) "backward") mixed_trace ∧
  select_features mixed_trace (NInt 5) "backward" = Ok (Some [0; 2]) ∧
  [0; 2] ≠ [].
Proof.
  split; [exact (mixed_trace_quiet "backward" eq_refl)|].
  exact (backward_fallback_last (NInt 5) mixed_trace mixed_last
           [(0, NInt (-1)); (2, f0_3)] eq_refl eq_refl
           (mixed_trace_quiet "backward" eq_refl)).
Defined.

(** C3. On a non-empty trace whose records all pass without a stop,
    [select_features] with direction ["forward"] returns the keys of the
    first record. *)
Theorem forward_fallback_universe threshold results iteration fs :
  head results = Some iteration →
  as_dict (feature_scores iteration) = Some fs →
  Forall (quiet threshold "forward") results →
  select_features results threshold "forward" = Ok (Some (keys fs)).
Proof.
  intros Hhead Hfs Hq. unfold select_features. cbn -[for_loop start].
  rewrite (scan_quiet threshold "forward" results start eq_refl eq_refl Hq).
  destruct results as [|it rest]; [discriminate|].
  injection Hhead as ->. cbn. unfold universe. cbn. rewrite Hfs. reflexivity.
Qed.

Lemma forward_fallback_universe_witness :
  Forall (quiet (NInt 5) "forward") mixed_trace ∧
  select_features mixed_trace (NInt 5) "forward" = Ok (Some [0; 1; 2]).
Proof.
  split; [exact (mixed_trace_quiet "forward" eq_refl)|].
  exact (forward_fallback_universe (NInt 5) mixed_trace mixed_first
           [(0, NInt (-1)); (1, f0_5); (2, f0_3)] eq_refl eq_refl
           (mixed_trace_quiet "forward" eq_refl)).
Defined.

(** ** The stop on the signs *)

Lemma set_difference_self (l : list Z) : set_difference l l = [].
Proof. unfold set_difference. rewrite difference_diag_L. apply elements_empty. Qed.

Lemma sign_condition_forward fs m :
  py_max (values fs) = Ok m →
  sign_condition "forward" fs = Ok (py_lt m (NInt 0)).
Proof. intros H. unfold sign_condition. cbn. rewrite H. reflexivity. Qed.

Lemma sign_condition_backward fs m :
  py_min (values fs) = Ok m →
  sign_condition "backward" fs = Ok (py_gt m (NInt 0)).
Proof. intros H. unfold sign_condition. cbn. rewrite H. reflexivity. Qed.

(** When every value is negative, so is the one [max] returns. *)
Lemma py_max_negative (l : list num) :
  l ≠ [] →
  Forall (λ v, py_lt v (NInt 0) = true) l →
  ∃ m, py_max l = Ok m ∧ py_lt m (NInt 0) = true.
Proof.
  destruct l as [|x l]; [congruence|]. intros _ Hall.
  exists (max_from x l). split; [reflexivity|].
  rewrite Forall_forall in Hall. apply Hall, max_from_elem.
Qed.

Lemma values_nonempty (fs : scores) : fs ≠ [] → values fs ≠ [].
Proof. destruct fs; [congruence|discriminate]. Qed.

(** C4. A first record that passes the checks and whose feature scores,
    at least one, are all strictly negative makes [select_features] with
    direction ["forward"] return the empty list. And when the scan comes to
    a record whose ["TE"] does not exceed the threshold, it stops there
    exactly when the maximum of the feature scores is strictly negative. *)
Theorem forward_sign_stop threshold :
  (∀ iteration rest te fs,
     as_number (TE iteration) = Some te →
     as_dict (feature_scores iteration) = Some fs →
     fs ≠ [] →
     Forall (λ v, py_lt v (NInt 0) = true) (values fs) →
     select_features (iteration :: rest) threshold "forward" = Ok (Some [])) ∧
  (∀ before st iteration te fs m,
     reaches threshold "forward" before st →
     as_number (TE iteration) = Some te →
     as_dict (feature_scores iteration) = Some fs →
     py_max (values fs) = Ok m →
     threshold_reached te threshold = false →
     (stops_at threshold "forward" before iteration ↔
        py_lt m (NInt 0) = true)).
Proof.
  split.
  - intros it rest te fs Hte Hfs Hne Hall.
    destruct (py_max_negative _ (values_nonempty _ Hne) Hall) as (m & Hm & Hneg).
    pose proof (sign_condition_forward _ _ Hm) as Hsg. rewrite Hneg in Hsg.
    unfold select_features. cbn -[start select_features_body].
    rewrite (select_features_body_checked threshold "forward" start it te fs true
               eq_refl eq_refl Hte Hfs Hsg).
    rewrite orb_true_r. cbn. rewrite set_difference_self. reflexivity.
  - intros before st it te fs m Hr Hte Hfs Hm Hth.
    rewrite (stops_at_checked _ _ _ _ _ _ _ _ Hr Hte Hfs
               (sign_condition_forward _ _ Hm)).
    rewrite Hth. reflexivity.
Qed.

Lemma forward_sign_stop_witness :
  (Forall (λ v, py_lt v (NInt 0) = true)
     (values [(0, NInt (-1)); (1, fm0_5)]) ∧
   select_features
     [rec_of 0 [(0, NInt (-1)); (1, fm0_5)];
      mixed_last] (NInt 5) "forward" = Ok (Some [])) ∧
  (reaches (NInt 5) "forward" [mixed_first]
     {| stop := false; initial_features := Some [0; 1; 2] |} ∧
   stops_at (NInt 5) "forward" [mixed_first]
     (rec_of 4 [(0, NInt (-1)); (2, NInt (-3))])).
Proof.
  assert (Forall (λ v, py_lt v (NInt 0) = true)
     (values [(0, NInt (-1)); (1, fm0_5)])) as Hall
    by (repeat constructor).
  assert (reaches (NInt 5) "forward" [mixed_first]
     {| stop := false; initial_features := Some [0; 1; 2] |}) as Hr
    by (split; reflexivity).
  split; (split; [assumption|]).
  - apply (proj1 (forward_sign_stop (NInt 5)) _ _ (NInt 0)
             [(0, NInt (-1)); (1, fm0_5)]);
      [reflexivity|reflexivity|discriminate|exact Hall].
  - apply (proj2 (forward_sign_stop (NInt 5)) _ _
             (rec_of 4 [(0, NInt (-1)); (2, NInt (-3))]) (NInt 4)
             [(0, NInt (-1)); (2, NInt (-3))] (NInt (-1)) Hr);
      reflexivity.
Defined.

(** ** Records that fail the checks *)

Lemma select_features_body_invalid threshold direction st iteration :
  valid_direction direction = true →
  invalid_record iteration →
  select_features_body threshold direction st iteration
    = Raise (invalid_record_error direction iteration).
Proof.
  intros Hd Hinv. unfold select_features_body, invalid_record_error.
  destruct (as_number (TE iteration)) as [te|] eqn:Hte; [|reflexivity].
  destruct (as_dict (feature_scores iteration)) as [fs|] eqn:Hfs; [|reflexivity].
  destruct Hinv as [H|[H|H]]; [congruence|congruence|].
  rewrite H in Hfs. injection Hfs as <-.
  destruct (valid_direction_cases _ Hd) as [-> | ->]; reflexivity.
Qed.

(** C7. When the scan of [select_features] comes to a record whose ["TE"]
    is not a number, or whose ["feature_scores"] is not a dictionary or is
    an empty one, the call raises the exception of that check and returns
    nothing, whatever records follow. *)
Theorem invalid_record_raises threshold direction before st iteration rest :
  reaches threshold direction before st →
  invalid_record iteration →
  select_features (before ++ iteration :: rest) threshold direction
    = Raise (invalid_record_error direction iteration).
Proof.
  intros [Hd Hscan] Hinv. unfold select_features. rewrite Hd.
  cbn -[for_loop start]. rewrite (for_loop_app_next _ _ _ _ _ Hscan).
  cbn [for_loop].
  rewrite (select_features_body_invalid _ _ _ _ Hd Hinv). reflexivity.
Qed.

Lemma invalid_record_raises_witness :
  reaches (NInt 5) "forward" [mixed_first]
    {| stop := false; initial_features := Some [0; 1; 2] |} ∧
  invalid_record (rec_of 9 []) ∧
  select_features ([mixed_first] ++ rec_of 9 [] :: [mixed_last]) (NInt 5)
    "forward" = Raise (ValueError "max() arg is an empty sequence").
Proof.
  assert (reaches (NInt 5) "forward" [mixed_first]
    {| stop := false; initial_features := Some [0; 1; 2] |}) as Hr
    by (split; reflexivity).
  assert (invalid_record (rec_of 9 [])) as Hinv
    by (right; right; reflexivity).
  split; [exact Hr|]. split; [exact Hinv|].
  exact (invalid_record_raises (NInt 5) "forward" [mixed_first] _
           (rec_of 9 []) [mixed_last] Hr Hinv).
Defined.

(** ** The empty trace *)

(** C10. On the empty trace the loop of [select_features] runs no body and
    leaves [initial_features] at [None]; then direction ["backward"] fails
    on [results[-1]] and direction ["forward"] on [list(None)]. No
    direction gives a returned value. *)
Theorem empty_trace_fails threshold :
  (∀ direction,
     for_loop (select_features_body threshold direction) start []
       = Ok (Next start)) ∧
  initial_features start = None ∧
  select_features [] threshold "backward"
    = Raise (IndexError "list index out of range") ∧
  select_features [] threshold "forward"
    = Raise (TypeError "'NoneType' object is not iterable") ∧
  (∀ direction v, select_features [] threshold direction ≠ Ok v).
Proof.
  repeat split; try reflexivity.
  intros direction v. unfold select_features.
  destruct (valid_direction direction) eqn:Hd; [|discriminate].
  destruct (valid_direction_cases _ Hd) as [-> | ->]; discriminate.
Qed.

(** ** Where the returned features come from *)

Lemma set_difference_subseteq (a b : list Z) : set_difference a b ⊆ a.
Proof.
  intros x. unfold set_difference.
  rewrite elem_of_elements, elem_of_difference, !elem_of_list_to_set. tauto.
Qed.

Lemma select_features_body_inv threshold direction st iteration c :
  select_features_body threshold direction st iteration = Ok c →
  ∃ fs, as_dict (feature_scores iteration) = Some fs ∧
    let initial := default (keys fs) (initial_features st) in
    match c with
    | Return l => l = stop_result direction initial fs
    | Next st' => initial_features st' = Some initial
    end.
Proof.
  unfold select_features_body, stop_result.
  destruct (as_number (TE iteration)) as [te|]; [|discriminate].
  destruct (as_dict (feature_scores iteration)) as [fs|]; [|discriminate].
  cbn. destruct (sign_condition direction fs) as [sign|]; [|discriminate].
  cbn. intros H. exists fs. split; [reflexivity|]. cbn.
  destruct (if sign then true
            else if threshold_reached te threshold then true else stop st).
  - destruct (String.eqb direction "backward");
      [|destruct (String.eqb direction "forward")];
      injection H as <-; reflexivity.
  - injection H as <-. reflexivity.
Qed.

Lemma forward_scan_within threshold results st u c :
  initial_features st = Some u →
  for_loop (select_features_body threshold "forward") st results = Ok c →
  match c with
  | Return l => l ⊆ u
  | Next st' => initial_features st' = Some u
  end.
Proof.
  revert st. induction results as [|it rest IH]; intros st Hu.
  - intros [= <-]. exact Hu.
  - cbn [for_loop].
    destruct (select_features_body threshold "forward" st it)
      as [c1|e] eqn:Hb; [|discriminate].
    destruct (select_features_body_inv _ _ _ _ _ Hb) as (fs & _ & Hc1).
    rewrite Hu in Hc1. cbn in Hc1. destruct c1 as [l|st1]; cbn.
    + intros [= <-]. rewrite Hc1. apply set_difference_subseteq.
    + apply IH, Hc1.
Qed.

Lemma backward_scan_keys threshold results st l :
  for_loop (select_features_body threshold "backward") st results
    = Ok (Return l) →
  keys_of_record results l.
Proof.
  revert st. induction results as [|it rest IH]; intros st; [discriminate|].
  cbn [for_loop].
  destruct (select_features_body threshold "backward" st it)
    as [c1|e] eqn:Hb; [|discriminate].
  destruct (select_features_body_inv _ _ _ _ _ Hb) as (fs & Hfs & Hc1).
  destruct c1 as [l1|st1]; cbn.
  - intros [= <-]. exists it, fs. split; [apply elem_of_cons; auto|].
    split; [exact Hfs|exact Hc1].
  - intros H. destruct (IH _ H) as (it' & fs' & Hin & Hfs' & Hl).
    exists it', fs'. split; [apply elem_of_cons; auto|]. auto.
Qed.

(** C9, counterexample. With direction ["backward"] the stop at the second
    record of [regrown_trace] returns the key 5, which the first record
    does not have. *)
Lemma backward_outside_universe :
  select_features regrown_trace (NInt 10) "backward" = Ok (Some [5]) ∧
  ¬ within_universe regrown_trace [5].
Proof.
  split; [reflexivity|].
  intros (u & Hu & Hsub). injection Hu as <-.
  assert (5 ∈ [0]) as H by (apply Hsub, elem_of_cons; left; reflexivity).
  apply elem_of_cons in H as [H|H]; [discriminate|].
  apply elem_of_nil in H. exact H.
Qed.

(** C9, amended. What [select_features] returns with direction ["forward"]
    lies within the keys of the first record; what it returns with
    direction ["backward"] is the list of the keys of a record of the
    trace, and so lies within the keys of the first record when the keys of
    every record do. *)
Theorem select_features_within threshold results l :
  (select_features results threshold "forward" = Ok (Some l) →
   within_universe results l) ∧
  (select_features results threshold "backward" = Ok (Some l) →
   keys_of_record results l) ∧
  (select_features results threshold "backward" = Ok (Some l) →
   Forall (λ iteration, ∀ fs,
             as_dict (feature_scores iteration) = Some fs →
             within_universe results (keys fs)) results →
   within_universe results l).
Proof.
  assert (select_features results threshold "backward" = Ok (Some l) →
          keys_of_record results l) as Hback.
  { unfold select_features; cbn -[for_loop start].
    destruct (for_loop _ start results) as [[l1|st1]|e] eqn:Hscan;
      cbn; try discriminate.
    - intros [= <-]. eapply backward_scan_keys, Hscan.
    - destruct (last results) as [it|] eqn:Hlast; [|discriminate]. cbn.
      destruct (feature_scores it) as [| | | | |fs] eqn:Hfs; try discriminate.
      cbn. intros [= <-]. exists it, fs.
      split; [apply last_Some_elem_of, Hlast|]. rewrite Hfs. auto. }
  split; [|split; [exact Hback|]].
  - unfold select_features; cbn -[for_loop start].
    destruct results as [|it rest]; [discriminate|]. cbn [for_loop].
    destruct (select_features_body threshold "forward" start it)
      as [c1|e] eqn:Hb; [|discriminate].
    destruct (select_features_body_inv _ _ _ _ _ Hb) as (fs & Hfs & Hc1).
    cbn in Hc1. unfold within_universe, universe. cbn. rewrite Hfs. cbn.
    intros H. exists (keys fs). split; [reflexivity|].
    destruct c1 as [l1|st1]; cbn in *.
    + injection H as <-. rewrite Hc1. apply set_difference_subseteq.
    + destruct (for_loop _ st1 rest) as [c|e] eqn:Hscan; [|discriminate].
      pose proof (forward_scan_within _ _ _ _ _ Hc1 Hscan) as Hin.
      destruct c as [l2|st2]; cbn in H.
      * injection H as <-. exact Hin.
      * rewrite Hin in H. injection H as <-. reflexivity.
  - intros H Hall. destruct (Hback H) as (it & fs & Hin & Hfs & ->).
    rewrite Forall_forall in Hall. exact (Hall it Hin fs Hfs).
Qed.

Lemma select_features_within_witness :
  (select_features [mixed_first; rec_of 7 [(1, f0_5)]] (NInt 5) "forward"
     = Ok (Some [2; 0]) ∧
   within_universe [mixed_first; rec_of 7 [(1, f0_5)]] [2; 0]) ∧
  (select_features regrown_trace (NInt 10) "backward" = Ok (Some [5]) ∧
   keys_of_record regrown_trace [5]) ∧
  (select_features [mixed_first; rec_of 7 [(1, f0_5)]] (NInt 5) "backward"
     = Ok (Some [1]) ∧
   within_universe [mixed_first; rec_of 7 [(1, f0_5)]] [1]).
Proof.
  split; [|split]; (split; [reflexivity|]).
  - apply (proj1 (select_features_within (NInt 5)
                    [mixed_first; rec_of 7 [(1, f0_5)]] [2; 0])).
    reflexivity.
  - apply (proj1 (proj2 (select_features_within (NInt 10) regrown_trace [5]))).
    reflexivity.
  - apply (proj2 (proj2 (select_features_within (NInt 5)
                    [mixed_first; rec_of 7 [(1, f0_5)]] [1])));
      [reflexivity|].
    constructor; [|constructor; [|constructor]];
      intros fs [= <-]; exists [0; 1; 2]; (split; [reflexivity|]);
      intros x; cbn; rewrite !elem_of_cons; tauto.
Defined.

(** ** The count of [select_n_features] *)

(** C5, counterexample. On [growing_trace] the call with [n = 1] and
    direction ["forward"] does not return the set [{1}]: the number of
    features is taken from the first record, which has none, and the
    [assert] on [n] fails. *)
Lemma growing_trace_rejected :
  ¬ (∃ l, select_n_features growing_trace 1 "forward" = Ok (Some l) ∧
          list_to_set l = ({[1]} : gset Z)).
Proof. intros (l & H & _). discriminate. Qed.

(** C5, amended. The universe and the number of features are those of the
    first record: on [growing_trace] the call raises the assertion error
    for [n <= 0]; on the same records with the largest first, it finds the
    second record, of one key, and returns the first record's keys without
    that key, which is [1]. *)
Theorem select_n_forward_example :
  select_n_features growing_trace 1 "forward"
    = Raise (AssertionError "n must be <= 0") ∧
  select_n_features shrinking_trace 1 "forward" = Ok (Some [1]) ∧
  for_loop (select_n_forward_body 1 2) None [rec_of 0 [(0, f0_5); (1, f0_3)]]
    = Ok (Next (Some [0; 1])) ∧
  select_n_forward_body 1 2 (Some [0; 1]) (rec_of 0 [(0, f0_5)])
    = Ok (Return (set_difference [0; 1] [0])).
Proof. repeat split; vm_compute; reflexivity. Qed.

(** C6, at an input. No record of this trace has two keys, and the call
    with [n = 2] and direction ["backward"] falls off the end of the
    function: it returns [None] and raises nothing. *)
Theorem select_n_backward_no_match :
  select_n_features
    [rec_of 0 [(0, NInt 1); (1, NInt 2); (2, NInt 3)]; rec_of 0 [(0, NInt 1)]]
    2 "backward" = Ok None.
Proof. reflexivity. Qed.

Lemma length_keys (fs : scores) : length (keys fs) = length fs.
Proof. unfold keys. apply length_fmap. Qed.

Lemma select_n_backward_body_other n iteration :
  other_size n iteration →
  select_n_backward_body n tt iteration = Ok (Next tt).
Proof.
  intros (fs & Hfs & Hlen). unfold select_n_backward_body. rewrite Hfs. cbn.
  rewrite length_keys. apply Z.eqb_neq in Hlen. rewrite Hlen. reflexivity.
Qed.

Lemma select_n_backward_body_match n iteration fs :
  feature_scores iteration = VDict fs →
  Z.of_nat (length fs) = n →
  select_n_backward_body n tt iteration = Ok (Return (keys fs)).
Proof.
  intros Hfs Hlen. unfold select_n_backward_body. rewrite Hfs. cbn.
  rewrite length_keys. apply Z.eqb_eq in Hlen. rewrite Hlen. reflexivity.
Qed.

Lemma select_n_backward_scan_none n results :
  Forall (other_size n) results →
  for_loop (select_n_backward_body n) tt results = Ok (Next tt).
Proof.
  induction 1 as [|it rest Hit _ IH]; [reflexivity|].
  cbn [for_loop]. rewrite (select_n_backward_body_other _ _ Hit). exact IH.
Qed.

(** The checks of [select_n_features] before its loops. *)
Lemma select_n_features_checks iteration rest n total :
  py_len (feature_scores iteration) = Ok total →
  1 ≤ n ≤ total →
  select_n_features (iteration :: rest) n "backward" =
    c ← for_loop (select_n_backward_body n) tt (iteration :: rest);
    match c with
    | Return l => Ok (Some l)
    | Next _ => Ok None
    end.
Proof.
  intros Hlen Hn. unfold select_n_features. cbn -[for_loop].
  rewrite Hlen. cbn -[for_loop].
  replace (n <=? total) with true by (symmetry; apply Z.leb_le; lia).
  replace (n >? 0) with true by (symmetry; rewrite Z.gtb_ltb; apply Z.ltb_lt; lia).
  reflexivity.
Qed.

(** X11. With direction ["backward"] and an [n] within the bounds, the
    first record with [n] keys gives the returned list: its keys, in their
    order. *)
Lemma select_n_backward_first_match iteration rest n total before found after fs :
  py_len (feature_scores iteration) = Ok total →
  1 ≤ n ≤ total →
  iteration :: rest = (before ++ found :: after)%list →
  Forall (other_size n) before →
  feature_scores found = VDict fs →
  Z.of_nat (length fs) = n →
  select_n_features (iteration :: rest) n "backward" = Ok (Some (keys fs)).
Proof.
  intros Hlen Hn Heq Hbefore Hfs Hsize.
  rewrite (select_n_features_checks _ _ _ _ Hlen Hn), Heq.
  rewrite (for_loop_app_next _ _ _ _ _ (select_n_backward_scan_none _ _ Hbefore)).
  cbn [for_loop]. rewrite (select_n_backward_body_match _ _ _ Hfs Hsize).
  reflexivity.
Qed.

(** X12. With direction ["backward"], an [n] within the bounds and no
    record of [n] keys, the function ends without a [return]: the call
    gives [None] and raises nothing. *)
Lemma select_n_backward_none iteration rest n total :
  py_len (feature_scores iteration) = Ok total →
  1 ≤ n ≤ total →
  Forall (other_size n) (iteration :: rest) →
  select_n_features (iteration :: rest) n "backward" = Ok None.
Proof.
  intros Hlen Hn Hall.
  rewrite (select_n_features_checks _ _ _ _ Hlen Hn).
  rewrite (select_n_backward_scan_none _ _ Hall). reflexivity.
Qed.

(** C8. With a first record whose feature scores have [total] entries, an
    [n] below 1 or above [total] makes [select_n_features] raise an
    assertion error: on the direction when that is not valid, else on
    [n <= total], else on [n > 0]. The other records play no part. *)
Theorem count_out_of_range iteration rest n direction total :
  py_len (feature_scores iteration) = Ok total →
  n < 1 ∨ total < n →
  select_n_features (iteration :: rest) n direction =
    Raise (AssertionError
             (if valid_direction direction
              then if n <=? total then "n must be > 0"
                   else "n must be <= " +:+ pretty total
              else "Invalid direction")).
Proof.
  intros Hlen Hn. unfold select_n_features.
  destruct (valid_direction direction); [|reflexivity].
  cbn -[for_loop]. rewrite Hlen. cbn -[for_loop].
  destruct (Z.leb_spec n total) as [Hle|Hgt]; [|reflexivity].
  cbn -[for_loop].
  replace (n >? 0) with false; [reflexivity|].
  symmetry. rewrite Z.gtb_ltb. apply Z.ltb_ge. lia.
Qed.

Lemma count_out_of_range_witness :
  select_n_features shrinking_trace 0 "forward"
    = Raise (AssertionError "n must be > 0") ∧
  select_n_features (rec_of 0 [(0, f0_5); (1, f0_3)] :: [rec_of 0 [(0, f0_5)]])
    3 "backward" = Raise (AssertionError "n must be <= 2").
Proof.
  split.
  - apply (count_out_of_range (rec_of 0 [(0, f0_5); (1, f0_3)]) _ 0
             "forward" 2 eq_refl).
    left. lia.
  - apply (count_out_of_range (rec_of 0 [(0, f0_5); (1, f0_3)]) _ 3
             "backward" 2 eq_refl).
    right. lia.
Defined.

(** * Further properties of the two functions *)

(** ** The universe the scan keeps *)

Lemma scan_keeps_initial threshold direction results st st' u :
  initial_features st = Some u →
  for_loop (select_features_body threshold direction) st results
    = Ok (Next st') →
  initial_features st' = Some u.
Proof.
  revert st. induction results as [|it rest IH]; intros st Hu.
  - intros [= <-]. exact Hu.
  - cbn [for_loop].
    destruct (select_features_body threshold direction st it)
      as [c1|e] eqn:Hb; [|discriminate].
    destruct (select_features_body_inv _ _ _ _ _ Hb) as (fs & _ & Hc1).
    rewrite Hu in Hc1. cbn in Hc1. destruct c1 as [l|st1]; cbn.
    + discriminate.
    + apply IH, Hc1.
Qed.

(** When the scan comes to a record, [initial_features] holds the keys of
    the first record, or [None] before the first record. *)
Lemma reaches_initial threshold direction before st :
  reaches threshold direction before st →
  initial_features st = universe before.
Proof.
  intros [_ Hscan]. destruct before as [|it rest].
  - injection Hscan as <-. reflexivity.
  - cbn [for_loop] in Hscan.
    destruct (select_features_body threshold direction start it)
      as [c1|e] eqn:Hb; [|discriminate].
    destruct (select_features_body_inv _ _ _ _ _ Hb) as (fs & Hfs & Hc1).
    cbn in Hc1. destruct c1 as [l|st1]; cbn in Hscan; [discriminate|].
    unfold universe. cbn. rewrite Hfs. cbn.
    eapply scan_keeps_initial; eassumption.
Qed.

Lemma reaches_universe threshold direction before st iteration rest fs :
  reaches threshold direction before st →
  as_dict (feature_scores iteration) = Some fs →
  universe (before ++ iteration :: rest)
    = Some (default (keys fs) (universe before)).
Proof.
  intros [_ Hscan] Hfs. destruct before as [|it0 before]; unfold universe; cbn.
  - rewrite Hfs. reflexivity.
  - cbn [for_loop] in Hscan.
    destruct (select_features_body threshold direction start it0)
      as [c1|e] eqn:Hb; [|discriminate].
    destruct (select_features_body_inv _ _ _ _ _ Hb) as (fs0 & Hfs0 & _).
    rewrite Hfs0. reflexivity.
Qed.

(** A stop: the call returns from the record, whatever follows it. *)
Lemma select_features_stop threshold direction before st iteration rest te fs sign :
  reaches threshold direction before st →
  as_number (TE iteration) = Some te →
  as_dict (feature_scores iteration) = Some fs →
  sign_condition direction fs = Ok sign →
  threshold_reached te threshold || sign = true →
  select_features (before ++ iteration :: rest) threshold direction
    = Ok (Some (stop_result direction
                  (default (keys fs) (universe before)) fs)).
Proof.
  intros Hr Hte Hfs Hsg Hstop. pose proof Hr as [Hd Hscan].
  unfold select_features. rewrite Hd. cbn -[for_loop start].
  rewrite (for_loop_app_next _ _ _ _ _ Hscan). cbn [for_loop].
  assert (stop st = false) as Hs
    by (eapply scan_next_stop; [exact Hd| |exact Hscan]; reflexivity).
  rewrite (select_features_body_checked _ _ _ _ _ _ _ Hd Hs Hte Hfs Hsg).
  cbn. rewrite Hstop. cbn. rewrite (reaches_initial _ _ _ _ Hr). reflexivity.
Qed.

Lemma set_difference_spec (a b : list Z) (k : Z) :
  k ∈ set_difference a b ↔ k ∈ a ∧ k ∉ b.
Proof.
  unfold set_difference.
  rewrite elem_of_elements, elem_of_difference, !elem_of_list_to_set. tauto.
Qed.

Lemma set_difference_NoDup (a b : list Z) : NoDup (set_difference a b).
Proof. apply NoDup_elements. Qed.

(** ** What a stop returns *)

(** X1. With direction ["backward"], when the scan comes to a record that
    passes the checks and whose ["TE"] exceeds the threshold or whose
    scores are all positive for [min], the call returns the keys of that
    record in their order; the records after it are not looked at. *)
Theorem backward_stop_returns_record threshold before st iteration rest te fs sign :
  reaches threshold "backward" before st →
  as_number (TE iteration) = Some te →
  as_dict (feature_scores iteration) = Some fs →
  sign_condition "backward" fs = Ok sign →
  threshold_reached te threshold || sign = true →
  select_features (before ++ iteration :: rest) threshold "backward"
    = Ok (Some (keys fs)).
Proof.
  intros Hr Hte Hfs Hsg Hstop.
  rewrite (select_features_stop _ _ _ _ _ _ _ _ _ Hr Hte Hfs Hsg Hstop).
  reflexivity.
Qed.

Lemma backward_stop_returns_record_witness :
  reaches (NInt 5) "backward" [mixed_first]
    {| stop := false; initial_features := Some [0; 1; 2] |} ∧
  select_features
    ([mixed_first] ++ rec_of 7 [(0, NInt (-1)); (2, f0_3)]
       :: [{| TE := VNone; feature_scores := VNone |}])
    (NInt 5) "backward" = Ok (Some [0; 2]).
Proof.
  assert (reaches (NInt 5) "backward" [mixed_first]
    {| stop := false; initial_features := Some [0; 1; 2] |}) as Hr
    by (split; reflexivity).
  split; [exact Hr|].
  exact (backward_stop_returns_record (NInt 5) [mixed_first] _
           (rec_of 7 [(0, NInt (-1)); (2, f0_3)])
           [{| TE := VNone; feature_scores := VNone |}]
           (NInt 7) [(0, NInt (-1)); (2, f0_3)] false
           Hr eq_refl eq_refl eq_refl eq_refl).
Defined.

(** X2. With direction ["forward"], a stop at a record returns, without
    repetition, exactly the keys of the first record that are not keys of
    the stopping record; the records after it are not looked at. *)
Theorem forward_stop_returns_complement threshold before st iteration rest te fs sign :
  reaches threshold "forward" before st →
  as_number (TE iteration) = Some te →
  as_dict (feature_scores iteration) = Some fs →
  sign_condition "forward" fs = Ok sign →
  threshold_reached te threshold || sign = true →
  ∃ u l,
    universe (before ++ iteration :: rest) = Some u ∧
    select_features (before ++ iteration :: rest) threshold "forward"
      = Ok (Some l) ∧
    NoDup l ∧
    ∀ k, k ∈ l ↔ k ∈ u ∧ k ∉ keys fs.
Proof.
  intros Hr Hte Hfs Hsg Hstop.
  exists (default (keys fs) (universe before)).
  exists (set_difference (default (keys fs) (universe before)) (keys fs)).
  split; [exact (reaches_universe _ _ _ _ _ _ _ Hr Hfs)|].
  split; [exact (select_features_stop _ _ _ _ _ _ _ _ _ Hr Hte Hfs Hsg Hstop)|].
  split; [apply set_difference_NoDup|]. intros k. apply set_difference_spec.
Qed.

Lemma forward_stop_returns_complement_witness :
  reaches (NInt 5) "forward" [mixed_first]
    {| stop := false; initial_features := Some [0; 1; 2] |} ∧
  ∃ u l,
    universe ([mixed_first] ++ rec_of 7 [(1, f0_5)] :: [mixed_last]) = Some u ∧
    select_features ([mixed_first] ++ rec_of 7 [(1, f0_5)] :: [mixed_last])
      (NInt 5) "forward" = Ok (Some l) ∧
    NoDup l ∧
    ∀ k, k ∈ l ↔ k ∈ u ∧ k ∉ keys [(1, f0_5)].
Proof.
  assert (reaches (NInt 5) "forward" [mixed_first]
    {| stop := false; initial_features := Some [0; 1; 2] |}) as Hr
    by (split; reflexivity).
  split; [exact Hr|].
  exact (forward_stop_returns_complement (NInt 5) [mixed_first] _
           (rec_of 7 [(1, f0_5)]) [mixed_last] (NInt 7) [(1, f0_5)] false
           Hr eq_refl eq_refl eq_refl eq_refl).
Defined.

(** When every value is positive, so is the one [min] returns. *)
Lemma py_min_positive (l : list num) :
  l ≠ [] →
  Forall (λ v, py_gt v (NInt 0) = true) l →
  ∃ m, py_min l = Ok m ∧ py_gt m (NInt 0) = true.
Proof.
  destruct l as [|x l]; [congruence|]. intros _ Hall.
  exists (min_from x l). split; [reflexivity|].
  rewrite Forall_forall in Hall. apply Hall, min_from_elem.
Qed.

(** X3. A first record that passes the checks and whose feature scores, at
    least one, are all strictly positive makes [select_features] with
    direction ["backward"] return all the keys of that record, whatever
    the threshold and the other records. *)
Theorem backward_sign_stop threshold iteration rest te fs :
  as_number (TE iteration) = Some te →
  as_dict (feature_scores iteration) = Some fs →
  fs ≠ [] →
  Forall (λ v, py_gt v (NInt 0) = true) (values fs) →
  select_features (iteration :: rest) threshold "backward"
    = Ok (Some (keys fs)).
Proof.
  intros Hte Hfs Hne Hall.
  destruct (py_min_positive _ (values_nonempty _ Hne) Hall) as (m & Hm & Hpos).
  pose proof (sign_condition_backward _ _ Hm) as Hsg. rewrite Hpos in Hsg.
  assert (reaches threshold "backward" [] start) as Hr by (split; reflexivity).
  apply (select_features_stop _ _ [] _ _ rest _ _ _ Hr Hte Hfs Hsg).
  apply orb_true_r.
Qed.

Lemma backward_sign_stop_witness :
  Forall (λ v, py_gt v (NInt 0) = true) (values [(3, f0_5); (1, NInt 2)]) ∧
  select_features [rec_of 0 [(3, f0_5); (1, NInt 2)]; mixed_last]
    (NInt 5) "backward" = Ok (Some [3; 1]).
Proof.
  assert (Forall (λ v, py_gt v (NInt 0) = true)
            (values [(3, f0_5); (1, NInt 2)])) as Hall
    by (repeat constructor).
  split; [exact Hall|].
  apply (backward_sign_stop (NInt 5) (rec_of 0 [(3, f0_5); (1, NInt 2)])
           [mixed_last] (NInt 0) [(3, f0_5); (1, NInt 2)] eq_refl eq_refl);
    [discriminate|exact Hall].
Defined.

(** X4. A first record that passes the checks and whose ["TE"] exceeds the
    threshold ends the scan at once: direction ["forward"] returns the
    empty list and direction ["backward"] all the keys of that record. *)
Theorem threshold_stop_first_record threshold iteration rest te fs :
  as_number (TE iteration) = Some te →
  as_dict (feature_scores iteration) = Some fs →
  fs ≠ [] →
  py_gt te threshold = true →
  select_features (iteration :: rest) threshold "forward" = Ok (Some []) ∧
  select_features (iteration :: rest) threshold "backward"
    = Ok (Some (keys fs)).
Proof.
  intros Hte Hfs Hne Hgt.
  destruct fs as [|[k v] fs'] eqn:Efs; [congruence|]. rewrite <- Efs in *.
  assert (∀ d, valid_direction d = true → ∃ sign, sign_condition d fs = Ok sign)
    as Hsign.
  { intros d Hd. rewrite Efs.
    destruct (valid_direction_cases _ Hd) as [-> | ->]; eexists; reflexivity. }
  assert (∀ sign, threshold_reached te threshold || sign = true) as Hstop
    by (intros sign; unfold threshold_reached; rewrite Hgt; reflexivity).
  split.
  - destruct (Hsign "forward" eq_refl) as [sign Hsg].
    assert (reaches threshold "forward" [] start) as Hr by (split; reflexivity).
    pose proof (select_features_stop _ _ [] _ _ rest _ _ _ Hr Hte Hfs Hsg
                  (Hstop sign)) as H.
    cbn in H. rewrite set_difference_self in H. exact H.
  - destruct (Hsign "backward" eq_refl) as [sign Hsg].
    assert (reaches threshold "backward" [] start) as Hr by (split; reflexivity).
    exact (select_features_stop _ _ [] _ _ rest _ _ _ Hr Hte Hfs Hsg
             (Hstop sign)).
Qed.

Lemma threshold_stop_first_record_witness :
  select_features mixed_trace (NInt 2) "forward" = Ok (Some []) ∧
  select_features mixed_trace (NInt 2) "backward" = Ok (Some [0; 1; 2]).
Proof.
  apply (threshold_stop_first_record (NInt 2) mixed_first [mixed_last]
           (NInt 3) [(0, NInt (-1)); (1, f0_5); (2, f0_3)] eq_refl eq_refl);
    [discriminate|reflexivity].
Defined.

(** ** When the call fails and when it cannot *)

Lemma select_features_body_raise threshold direction st iteration e :
  valid_direction direction = true →
  select_features_body threshold direction st iteration = Raise e →
  invalid_record iteration ∧ e = invalid_record_error direction iteration.
Proof.
  intros Hd. unfold select_features_body, invalid_record, invalid_record_error.
  destruct (as_number (TE iteration)) as [te|] eqn:Hte;
    [|intros [= <-]; auto].
  destruct (as_dict (feature_scores iteration)) as [fs|] eqn:Hfs;
    [|intros [= <-]; auto].
  apply as_dict_Some in Hfs. cbn.
  destruct fs as [|kv fs].
  - destruct (valid_direction_cases _ Hd) as [-> | ->];
      cbn; intros [= <-]; auto.
  - destruct (valid_direction_cases _ Hd) as [-> | ->]; cbn;
      repeat match goal with |- context [if ?b then _ else _] => destruct b end;
      discriminate.
Qed.

Lemma select_features_body_ok threshold direction st iteration c :
  valid_direction direction = true →
  select_features_body threshold direction st iteration = Ok c →
  checked_record iteration.
Proof.
  intros Hd. unfold select_features_body, checked_record.
  destruct (as_number (TE iteration)) as [te|] eqn:Hte; [|discriminate].
  destruct (as_dict (feature_scores iteration)) as [fs|] eqn:Hfs; [|discriminate].
  cbn. destruct (sign_condition direction fs) as [sign|] eqn:Hsg; [|discriminate].
  intros _. exists te, fs. repeat split.
  eapply sign_condition_nonempty; eassumption.
Qed.

Lemma checked_not_invalid iteration :
  checked_record iteration → ¬ invalid_record iteration.
Proof.
  intros (te & fs & Hte & Hfs & Hne) [H|[H|H]]; try congruence.
  rewrite H in Hfs. cbn in Hfs. congruence.
Qed.

Lemma scan_raise threshold direction results st e :
  valid_direction direction = true →
  for_loop (select_features_body threshold direction) st results = Raise e →
  ∃ iteration,
    iteration ∈ results ∧ invalid_record iteration ∧
    e = invalid_record_error direction iteration.
Proof.
  intros Hd. revert st. induction results as [|it rest IH]; intros st.
  - discriminate.
  - cbn [for_loop].
    destruct (select_features_body threshold direction st it)
      as [[l|st1]|e1] eqn:Hb; cbn.
    + discriminate.
    + intros H. destruct (IH _ H) as (it' & Hin & Hinv).
      exists it'. split; [apply elem_of_cons; auto|exact Hinv].
    + intros [= <-]. exists it. split; [apply elem_of_cons; auto|].
      eapply select_features_body_raise; eassumption.
Qed.

Lemma scan_next_checked threshold direction results st st' :
  valid_direction direction = true →
  for_loop (select_features_body threshold direction) st results
    = Ok (Next st') →
  Forall checked_record results.
Proof.
  intros Hd. revert st. induction results as [|it rest IH]; intros st.
  - constructor.
  - cbn [for_loop].
    destruct (select_features_body threshold direction st it)
      as [[l|st1]|e1] eqn:Hb; cbn; try discriminate.
    intros H. constructor; [|eapply IH, H].
    eapply select_features_body_ok; eassumption.
Qed.

Lemma scan_next_initial threshold direction iteration rest st :
  for_loop (select_features_body threshold direction) start
    (iteration :: rest) = Ok (Next st) →
  ∃ u, initial_features st = Some u.
Proof.
  cbn [for_loop].
  destruct (select_features_body threshold direction start iteration)
    as [c1|e] eqn:Hb; [|discriminate].
  destruct (select_features_body_inv _ _ _ _ _ Hb) as (fs & _ & Hc1).
  destruct c1 as [l|st1]; cbn; [discriminate|]. cbn in Hc1.
  intros H. eexists. eapply scan_keeps_initial; eassumption.
Qed.

(** The value after the loop, when the loop did not raise. *)
Lemma select_features_after_scan threshold direction results c :
  valid_direction direction = true →
  results ≠ [] →
  for_loop (select_features_body threshold direction) start results = Ok c →
  ∃ l, select_features results threshold direction = Ok (Some l).
Proof.
  intros Hd Hne Hscan. unfold select_features. rewrite Hd.
  cbn -[for_loop start]. rewrite Hscan. cbn.
  destruct c as [l|st]; [eexists; reflexivity|].
  destruct (valid_direction_cases _ Hd) as [-> | ->]; cbn.
  - destruct results as [|it rest]; [congruence|].
    destruct (scan_next_initial _ _ _ _ _ Hscan) as [u ->].
    eexists. reflexivity.
  - destruct (last results) as [it|] eqn:Hlast;
      [|apply last_None in Hlast; congruence].
    pose proof (scan_next_checked _ _ _ _ _ Hd Hscan) as Hall.
    rewrite Forall_forall in Hall.
    destruct (Hall it (last_Some_elem_of _ _ Hlast)) as (te & fs & _ & Hfs & _).
    cbn. rewrite (as_dict_Some _ _ Hfs). eexists. reflexivity.
Qed.



(** X6. On a non-empty trace whose records all pass the checks, and with
    one of the two directions, [select_features] raises nothing and
    returns a list. *)
Theorem select_features_succeeds results threshold direction :
  valid_direction direction = true →
  results ≠ [] →
  Forall checked_record results →
  ∃ l, select_features results threshold direction = Ok (Some l).
Proof.
  intros Hd Hne Hall.
  destruct (for_loop (select_features_body threshold direction) start results)
    as [c|e] eqn:Hscan.
  - eapply select_features_after_scan; eassumption.
  - destruct (scan_raise _ _ _ _ _ Hd Hscan) as (it & Hin & Hinv & _).
    rewrite Forall_forall in Hall.
    destruct (checked_not_invalid _ (Hall it Hin) Hinv).
Qed.

Lemma mixed_trace_checked : Forall checked_record mixed_trace.
Proof.
  repeat constructor.
  - exists (NInt 3), [(0, NInt (-1)); (1, f0_5); (2, f0_3)].
    repeat split; (reflexivity || discriminate).
  - exists (NInt 5), [(0, NInt (-1)); (2, f0_3)].
    repeat split; (reflexivity || discriminate).
Defined.

Lemma select_features_succeeds_witness :
  Forall checked_record mixed_trace ∧
  ∃ l, select_features mixed_trace (NInt 4) "forward" = Ok (Some l).
Proof.
  split; [exact mixed_trace_checked|].
  apply (select_features_succeeds mixed_trace (NInt 4) "forward" eq_refl);
    [discriminate|exact mixed_trace_checked].
Defined.

(** ** The list of direction ["backward"] *)

Lemma scan_return_checked threshold direction results st l :
  valid_direction direction = true →
  for_loop (select_features_body threshold direction) st results
    = Ok (Return l) →
  ∃ iteration fs initial,
    iteration ∈ results ∧
    as_dict (feature_scores iteration) = Some fs ∧ fs ≠ [] ∧
    l = stop_result direction initial fs.
Proof.
  intros Hd. revert st. induction results as [|it rest IH]; intros st.
  - discriminate.
  - cbn [for_loop].
    destruct (select_features_body threshold direction st it)
      as [c1|e1] eqn:Hb; [|discriminate].
    destruct (select_features_body_inv _ _ _ _ _ Hb) as (fs & Hfs & Hc1).
    destruct (select_features_body_ok _ _ _ _ _ Hd Hb)
      as (te & fs' & _ & Hfs' & Hne).
    rewrite Hfs in Hfs'. injection Hfs' as <-.
    destruct c1 as [l1|st1]; cbn.
    + intros [= <-]. exists it, fs. eexists.
      split; [apply elem_of_cons; auto|]. repeat split; eassumption.
    + intros H. destruct (IH _ H) as (it' & fs' & i & Hin & Hrest).
      exists it', fs', i. split; [apply elem_of_cons; auto|exact Hrest].
Qed.

(** X7. What [select_features] returns with direction ["backward"] is
    never the empty list: it is the list of the keys of a record of the
    trace that has an entry. *)
Theorem backward_result_nonempty results threshold l :
  select_features results threshold "backward" = Ok (Some l) →
  l ≠ [] ∧
  ∃ iteration fs,
    iteration ∈ results ∧
    as_dict (feature_scores iteration) = Some fs ∧ l = keys fs.
Proof.
  unfold select_features. cbn -[for_loop start].
  destruct (for_loop _ start results) as [[l1|st1]|e] eqn:Hscan;
    cbn; try discriminate.
  - intros [= <-].
    destruct (scan_return_checked threshold "backward" _ _ _ eq_refl Hscan)
      as (it & fs & i & Hin & Hfs & Hne & ->).
    split; [apply keys_nonempty, Hne|]. exists it, fs. auto.
  - destruct (last results) as [it|] eqn:Hlast; [|discriminate]. cbn.
    pose proof (scan_next_checked threshold "backward" _ _ _ eq_refl Hscan)
      as Hall.
    rewrite Forall_forall in Hall.
    pose proof (last_Some_elem_of _ _ Hlast) as Hin.
    destruct (Hall it Hin) as (te & fs & _ & Hfs & Hne).
    rewrite (as_dict_Some _ _ Hfs). cbn. intros [= <-].
    split; [apply keys_nonempty, Hne|]. exists it, fs.
    rewrite (as_dict_Some _ _ Hfs). auto.
Qed.

Lemma backward_result_nonempty_witness :
  ([0; 2] : list Z) ≠ [] ∧
  ∃ iteration fs,
    iteration ∈ mixed_trace ∧
    as_dict (feature_scores iteration) = Some fs ∧ [0; 2] = keys fs.
Proof.
  apply (backward_result_nonempty mixed_trace (NInt 5) [0; 2]). reflexivity.
Defined.

(** ** A threshold that is NaN *)

Lemma for_loop_ext {S R A} (body body' : S → A → result (control S R)) l st :
  (∀ st x, body st x = body' st x) →
  for_loop body st l = for_loop body' st l.
Proof.
  intros Hext. revert st. induction l as [|x l IH]; intros st; cbn.
  - reflexivity.
  - rewrite Hext. destruct (body' st x) as [[v|st1]|e]; cbn; auto.
Qed.

Lemma threshold_reached_nan te : threshold_reached te nan = false.
Proof. destruct te as [z|[]]; reflexivity. Qed.

Lemma threshold_reached_infinity te : threshold_reached te pos_infinity = false.
Proof. destruct te as [z|[[]|[]| |]]; reflexivity. Qed.

(** X9. No ["TE"] exceeds a threshold that is NaN: the comparison of line
    43 is then false for every record, and [select_features] returns what
    it returns for the threshold +infinity, where only the signs of the
    scores can stop the scan. *)
Theorem nan_threshold_never_reached results direction :
  (∀ te, threshold_reached te nan = false) ∧
  select_features results nan direction
    = select_features results pos_infinity direction.
Proof.
  split; [exact threshold_reached_nan|].
  unfold select_features.
  rewrite (for_loop_ext (select_features_body nan direction)
             (select_features_body pos_infinity direction)); [reflexivity|].
  intros st it. unfold select_features_body.
  destruct (as_number (TE it)) as [te|]; [|reflexivity].
  destruct (as_dict (feature_scores it)) as [fs|]; [|reflexivity].
  cbn. rewrite threshold_reached_nan, threshold_reached_infinity.
  reflexivity.
Qed.

(** ** The direction *)

(** X10. A direction that is neither ["forward"] nor ["backward"], letter
    for letter, makes both functions raise the assertion error on the
    direction, before they look at the trace or at [n]. *)
Theorem invalid_direction_rejected results threshold n direction :
  direction ≠ "forward" →
  direction ≠ "backward" →
  select_features results threshold direction
    = Raise (AssertionError "Invalid direction") ∧
  select_n_features results n direction
    = Raise (AssertionError "Invalid direction").
Proof.
  intros Hf Hb.
  assert (valid_direction direction = false) as Hd.
  { unfold valid_direction. apply orb_false_iff.
    split; apply String.eqb_neq; assumption. }
  unfold select_features, select_n_features. rewrite Hd. split; reflexivity.
Qed.

Lemma invalid_direction_rejected_witness :
  select_features mixed_trace (NInt 5) "Forward"
    = Raise (AssertionError "Invalid direction") ∧
  select_n_features mixed_trace 1 "Forward"
    = Raise (AssertionError "Invalid direction").
Proof.
  apply (invalid_direction_rejected mixed_trace (NInt 5) 1 "Forward");
    discriminate.
Defined.

(** ** The lists of [select_n_features] *)

Lemma select_n_backward_first_match_witness :
  Forall (other_size 1) [rec_of 0 [(0, f0_5); (1, f0_3)]] ∧
  select_n_features shrinking_trace 1 "backward" = Ok (Some [0]).
Proof.
  assert (Forall (other_size 1) [rec_of 0 [(0, f0_5); (1, f0_3)]]) as Hb.
  { repeat constructor. exists [(0, f0_5); (1, f0_3)].
    split; [reflexivity|discriminate]. }
  split; [exact Hb|].
  apply (select_n_backward_first_match (rec_of 0 [(0, f0_5); (1, f0_3)])
           [rec_of 0 [(0, f0_5)]; rec_of 0 []] 1 2
           [rec_of 0 [(0, f0_5); (1, f0_3)]] (rec_of 0 [(0, f0_5)])
           [rec_of 0 []] [(0, f0_5)] eq_refl);
    [lia|reflexivity|exact Hb|reflexivity|reflexivity].
Defined.

Lemma select_n_backward_none_witness :
  Forall (other_size 1)
    [rec_of 0 [(0, f0_5); (1, f0_3)]; rec_of 0 []] ∧
  select_n_features [rec_of 0 [(0, f0_5); (1, f0_3)]; rec_of 0 []]
    1 "backward" = Ok None.
Proof.
  assert (Forall (other_size 1)
            [rec_of 0 [(0, f0_5); (1, f0_3)]; rec_of 0 []]) as Hall.
  { repeat constructor.
    - exists [(0, f0_5); (1, f0_3)]. split; [reflexivity|discriminate].
    - exists []. split; [reflexivity|discriminate]. }
  split; [exact Hall|].
  apply (select_n_backward_none (rec_of 0 [(0, f0_5); (1, f0_3)])
           [rec_of 0 []] 1 2 eq_refl); [lia|exact Hall].
Defined.

Lemma py_keys_Ok v ks :
  py_keys v = Ok ks → ∃ fs, v = VDict fs ∧ ks = keys fs.
Proof. destruct v; try discriminate. intros [= <-]. eauto. Qed.

Lemma py_keys_Raise v e :
  py_keys v = Raise e →
  as_dict v = None ∧ e = AttributeError "object has no attribute 'keys'".
Proof. destruct v; try discriminate; intros [= <-]; auto. Qed.

Lemma select_n_backward_body_inv n st iteration c :
  select_n_backward_body n st iteration = Ok c →
  ∃ fs, feature_scores iteration = VDict fs ∧
    c = if Z.of_nat (length fs) =? n then Return (keys fs) else Next tt.
Proof.
  unfold select_n_backward_body.
  destruct (py_keys (feature_scores iteration)) as [ks|e] eqn:Hk;
    [|discriminate].
  destruct (py_keys_Ok _ _ Hk) as (fs & Hfs & ->). cbn.
  rewrite length_keys. intros H. exists fs. split; [exact Hfs|].
  destruct (Z.of_nat (length fs) =? n); congruence.
Qed.

Lemma select_n_backward_scan_return n results l :
  for_loop (select_n_backward_body n) tt results = Ok (Return l) →
  Z.of_nat (length l) = n ∧ keys_of_record results l.
Proof.
  induction results as [|it rest IH]; [discriminate|].
  cbn [for_loop].
  destruct (select_n_backward_body n tt it) as [c|e] eqn:Hb; [|discriminate].
  destruct (select_n_backward_body_inv _ _ _ _ Hb) as (fs & Hfs & ->).
  destruct (Z.eqb_spec (Z.of_nat (length fs)) n) as [Heq|Hne]; cbn.
  - intros [= <-]. rewrite length_keys. split; [exact Heq|]. exists it, fs.
    split; [apply elem_of_cons; auto|]. rewrite Hfs. auto.
  - intros H. destruct (IH H) as (Hlen & it' & fs' & Hin & Hrest).
    split; [exact Hlen|]. exists it', fs'.
    split; [apply elem_of_cons; auto|exact Hrest].
Qed.

(** X13. A list that [select_n_features] returns with direction
    ["backward"] has exactly [n] elements, with [n] at least 1, and is the
    list of the keys of a record of the trace. *)
Theorem select_n_backward_returns results n l :
  select_n_features results n "backward" = Ok (Some l) →
  Z.of_nat (length l) = n ∧ 1 ≤ n ∧ keys_of_record results l.
Proof.
  unfold select_n_features. cbn -[for_loop].
  destruct (head results) as [first|]; [|discriminate]. cbn -[for_loop].
  destruct (py_len (feature_scores first)) as [total|]; [|discriminate].
  cbn -[for_loop].
  destruct (n <=? total); [|discriminate]. cbn -[for_loop].
  destruct (Z.gtb_spec n 0) as [Hpos|]; [|discriminate]. cbn -[for_loop].
  destruct (for_loop (select_n_backward_body n) tt results)
    as [[l1|[]]|e] eqn:Hscan; cbn; try discriminate.
  intros [= <-].
  destruct (select_n_backward_scan_return _ _ _ Hscan) as [Hlen Hkeys].
  split; [exact Hlen|]. split; [lia|exact Hkeys].
Qed.

Lemma select_n_backward_returns_witness :
  Z.of_nat (length [0]) = 1 ∧ 1 ≤ 1 ∧ keys_of_record shrinking_trace [0].
Proof.
  apply (select_n_backward_returns shrinking_trace 1 [0]). reflexivity.
Defined.

(** ** Direction ["forward"] of [select_n_features] *)

Lemma select_n_forward_body_dict n total init iteration fs :
  feature_scores iteration = VDict fs →
  select_n_forward_body n total init iteration =
    Ok (if Z.of_nat (length fs) =? total - n
        then Return (set_difference (default (keys fs) init) (keys fs))
        else Next (Some (default (keys fs) init))).
Proof.
  intros Hfs. unfold select_n_forward_body. rewrite Hfs. cbn.
  rewrite length_keys. destruct (Z.of_nat (length fs) =? total - n); reflexivity.
Qed.

Lemma universe_cons_dict iteration rest fs :
  feature_scores iteration = VDict fs →
  universe (iteration :: rest) = Some (keys fs).
Proof. intros Hfs. unfold universe. cbn. rewrite Hfs. reflexivity. Qed.

Lemma select_n_forward_scan_other n total results init :
  Forall (other_size (total - n)) results →
  for_loop (select_n_forward_body n total) init results =
    Ok (Next (match init with
              | Some u => Some u
              | None => universe results
              end)).
Proof.
  intros Hall. revert init.
  induction Hall as [|it rest (fs & Hfs & Hlen) _ IH]; intros init.
  - destruct init; reflexivity.
  - cbn [for_loop]. rewrite (select_n_forward_body_dict _ _ _ _ _ Hfs).
    apply Z.eqb_neq in Hlen. rewrite Hlen. cbn -[for_loop universe]. rewrite IH.
    rewrite (universe_cons_dict it rest fs Hfs). destruct init; reflexivity.
Qed.

Lemma select_n_forward_checks iteration rest n total :
  py_len (feature_scores iteration) = Ok total →
  1 ≤ n ≤ total →
  select_n_features (iteration :: rest) n "forward" =
    c ← for_loop (select_n_forward_body n total) None (iteration :: rest);
    match c with
    | Return l => Ok (Some l)
    | Next initial_features =>
        l ← require initial_features
              (TypeError "'NoneType' object is not iterable");
        Ok (Some l)
    end.
Proof.
  intros Hlen Hn. unfold select_n_features. cbn -[for_loop].
  rewrite Hlen. cbn -[for_loop].
  replace (n <=? total) with true by (symmetry; apply Z.leb_le; lia).
  replace (n >? 0) with true by (symmetry; rewrite Z.gtb_ltb; apply Z.ltb_lt; lia).
  reflexivity.
Qed.

Lemma universe_app_other k before found after fs :
  Forall (other_size k) before →
  feature_scores found = VDict fs →
  universe (before ++ found :: after)
    = Some (default (keys fs) (universe before)).
Proof.
  intros Hall Hfs. destruct Hall as [|it rest (fs0 & Hfs0 & _) _].
  - exact (universe_cons_dict found after fs Hfs).
  - cbn [app]. rewrite (universe_cons_dict it rest fs0 Hfs0).
    rewrite (universe_cons_dict it (rest ++ found :: after) fs0 Hfs0).
    reflexivity.
Qed.

(** The first record of the wanted size gives the returned list. *)
Lemma select_n_forward_match iteration rest n total before found after fs :
  py_len (feature_scores iteration) = Ok total →
  1 ≤ n ≤ total →
  iteration :: rest = (before ++ found :: after)%list →
  Forall (other_size (total - n)) before →
  feature_scores found = VDict fs →
  Z.of_nat (length fs) = total - n →
  ∃ u,
    universe (iteration :: rest) = Some u ∧
    select_n_features (iteration :: rest) n "forward"
      = Ok (Some (set_difference u (keys fs))).
Proof.
  intros Hlen Hn Heq Hbefore Hfs Hsize.
  exists (default (keys fs) (universe before)).
  rewrite (select_n_forward_checks _ _ _ _ Hlen Hn), Heq.
  split; [exact (universe_app_other _ _ _ _ _ Hbefore Hfs)|].
  rewrite (for_loop_app_next _ _ _ _ _
             (select_n_forward_scan_other _ _ _ None Hbefore)).
  cbn [for_loop]. rewrite (select_n_forward_body_dict _ _ _ _ _ Hfs).
  apply Z.eqb_eq in Hsize. rewrite Hsize. reflexivity.
Qed.

(** X14. With direction ["forward"] and an [n] within the bounds,
    [select_n_features] returns, at the first record whose number of keys
    is the number of features minus [n], the keys of the first record that
    are not keys of that record, each once. *)
Theorem select_n_forward_first_match iteration rest n total before found after fs :
  py_len (feature_scores iteration) = Ok total →
  1 ≤ n ≤ total →
  iteration :: rest = (before ++ found :: after)%list →
  Forall (other_size (total - n)) before →
  feature_scores found = VDict fs →
  Z.of_nat (length fs) = total - n →
  ∃ u l,
    universe (iteration :: rest) = Some u ∧
    select_n_features (iteration :: rest) n "forward" = Ok (Some l) ∧
    NoDup l ∧
    ∀ k, k ∈ l ↔ k ∈ u ∧ k ∉ keys fs.
Proof.
  intros Hlen Hn Heq Hbefore Hfs Hsize.
  destruct (select_n_forward_match _ _ _ _ _ _ _ _ Hlen Hn Heq Hbefore Hfs Hsize)
    as (u & Hu & Hsel).
  exists u, (set_difference u (keys fs)).
  split; [exact Hu|]. split; [exact Hsel|].
  split; [apply set_difference_NoDup|]. intros k. apply set_difference_spec.
Qed.

Lemma shrinking_before_other :
  Forall (other_size (2 - 1)) [rec_of 0 [(0, f0_5); (1, f0_3)]].
Proof.
  repeat constructor. exists [(0, f0_5); (1, f0_3)].
  split; [reflexivity|discriminate].
Defined.

Lemma select_n_forward_first_match_witness :
  Forall (other_size (2 - 1)) [rec_of 0 [(0, f0_5); (1, f0_3)]] ∧
  ∃ u l,
    universe shrinking_trace = Some u ∧
    select_n_features shrinking_trace 1 "forward" = Ok (Some l) ∧
    NoDup l ∧
    ∀ k, k ∈ l ↔ k ∈ u ∧ k ∉ keys [(0, f0_5)].
Proof.
  split; [exact shrinking_before_other|].
  apply (select_n_forward_first_match (rec_of 0 [(0, f0_5); (1, f0_3)])
           [rec_of 0 [(0, f0_5)]; rec_of 0 []] 1 2
           [rec_of 0 [(0, f0_5); (1, f0_3)]] (rec_of 0 [(0, f0_5)])
           [rec_of 0 []] [(0, f0_5)] eq_refl);
    [lia|reflexivity|exact shrinking_before_other|reflexivity|reflexivity].
Defined.

(** X15. With direction ["forward"], when no record has the wanted number
    of keys, [select_n_features] returns all the keys of the first record,
    in their order, whatever [n] within the bounds is. *)
Theorem select_n_forward_no_match iteration rest n fs :
  feature_scores iteration = VDict fs →
  1 ≤ n ≤ Z.of_nat (length fs) →
  Forall (other_size (Z.of_nat (length fs) - n)) (iteration :: rest) →
  select_n_features (iteration :: rest) n "forward" = Ok (Some (keys fs)).
Proof.
  intros Hfs Hn Hall.
  assert (py_len (feature_scores iteration) = Ok (Z.of_nat (length fs))) as Hlen
    by (rewrite Hfs; reflexivity).
  rewrite (select_n_forward_checks _ _ _ _ Hlen Hn).
  rewrite (select_n_forward_scan_other _ _ _ None Hall).
  rewrite (universe_cons_dict iteration rest fs Hfs). reflexivity.
Qed.

Lemma select_n_forward_no_match_witness :
  Forall (other_size (Z.of_nat (length [(0, f0_5); (1, f0_3); (2, f0_3)]) - 1))
    [rec_of 0 [(0, f0_5); (1, f0_3); (2, f0_3)]; rec_of 0 [(0, f0_5)]] ∧
  select_n_features
    [rec_of 0 [(0, f0_5); (1, f0_3); (2, f0_3)]; rec_of 0 [(0, f0_5)]]
    1 "forward" = Ok (Some [0; 1; 2]).
Proof.
  assert (Forall
    (other_size (Z.of_nat (length [(0, f0_5); (1, f0_3); (2, f0_3)]) - 1))
    [rec_of 0 [(0, f0_5); (1, f0_3); (2, f0_3)]; rec_of 0 [(0, f0_5)]]) as Hall.
  { repeat constructor.
    - exists [(0, f0_5); (1, f0_3); (2, f0_3)].
      split; [reflexivity|discriminate].
    - exists [(0, f0_5)]. split; [reflexivity|discriminate]. }
  split; [exact Hall|].
  apply (select_n_forward_no_match
           (rec_of 0 [(0, f0_5); (1, f0_3); (2, f0_3)])
           [rec_of 0 [(0, f0_5)]] 1 [(0, f0_5); (1, f0_3); (2, f0_3)] eq_refl);
    [cbn; lia|exact Hall].
Defined.

Lemma length_set_difference (a b : list Z) :
  NoDup a → NoDup b → b ⊆ a →
  length (set_difference a b) = (length a - length b)%nat.
Proof.
  intros Ha Hb Hsub. unfold set_difference.
  change (length (elements ?X)) with (size X).
  rewrite size_difference.
  - rewrite !size_list_to_set by assumption. reflexivity.
  - intros x. rewrite !elem_of_list_to_set. apply Hsub.
Qed.

(** X16. With direction ["forward"], when the keys of the first record are
    distinct and the record found has distinct keys among them, the list
    returned has exactly [n] elements. *)
Theorem select_n_forward_length iteration rest n fs0 before found after fs :
  feature_scores iteration = VDict fs0 →
  1 ≤ n ≤ Z.of_nat (length fs0) →
  iteration :: rest = (before ++ found :: after)%list →
  Forall (other_size (Z.of_nat (length fs0) - n)) before →
  feature_scores found = VDict fs →
  Z.of_nat (length fs) = Z.of_nat (length fs0) - n →
  NoDup (keys fs0) → NoDup (keys fs) → keys fs ⊆ keys fs0 →
  ∃ l, select_n_features (iteration :: rest) n "forward" = Ok (Some l) ∧
       Z.of_nat (length l) = n.
Proof.
  intros Hfs0 Hn Heq Hbefore Hfs Hsize Hnd0 Hnd Hsub.
  assert (py_len (feature_scores iteration) = Ok (Z.of_nat (length fs0))) as Hlen
    by (rewrite Hfs0; reflexivity).
  destruct (select_n_forward_match _ _ _ _ _ _ _ _ Hlen Hn Heq Hbefore Hfs Hsize)
    as (u & Hu & Hsel).
  rewrite (universe_cons_dict iteration rest fs0 Hfs0) in Hu.
  injection Hu as <-. eexists. split; [exact Hsel|].
  rewrite (length_set_difference _ _ Hnd0 Hnd Hsub), !length_keys. lia.
Qed.

Lemma select_n_forward_length_witness :
  Forall (other_size (Z.of_nat (length [(0, f0_5); (1, f0_3)]) - 1))
    [rec_of 0 [(0, f0_5); (1, f0_3)]] ∧
  ∃ l, select_n_features shrinking_trace 1 "forward" = Ok (Some l) ∧
       Z.of_nat (length l) = 1.
Proof.
  split; [exact shrinking_before_other|].
  apply (select_n_forward_length (rec_of 0 [(0, f0_5); (1, f0_3)])
           [rec_of 0 [(0, f0_5)]; rec_of 0 []] 1 [(0, f0_5); (1, f0_3)]
           [rec_of 0 [(0, f0_5); (1, f0_3)]] (rec_of 0 [(0, f0_5)])
           [rec_of 0 []] [(0, f0_5)] eq_refl).
  - cbn. lia.
  - reflexivity.
  - exact shrinking_before_other.
  - reflexivity.
  - reflexivity.
  - cbn. repeat constructor; rewrite ?elem_of_cons, ?elem_of_nil; intuition lia.
  - cbn. repeat constructor; rewrite ?elem_of_nil; tauto.
  - cbn. intros x. rewrite !elem_of_cons. tauto.
Defined.

Lemma select_n_forward_scan_dicts n total results init :
  Forall (λ r, is_Some (as_dict (feature_scores r))) results →
  ∃ c, for_loop (select_n_forward_body n total) init results = Ok c ∧
    match c with
    | Return _ => True
    | Next i => i = match init with
                    | Some u => Some u
                    | None => universe results
                    end
    end.
Proof.
  intros Hall. revert init.
  induction Hall as [|it rest [fs Hfs] _ IH]; intros init.
  - exists (Next init). split; [reflexivity|]. destruct init; reflexivity.
  - apply as_dict_Some in Hfs. cbn [for_loop].
    rewrite (select_n_forward_body_dict _ _ _ _ _ Hfs).
    destruct (Z.of_nat (length fs) =? total - n); cbn -[for_loop universe].
    + eexists. split; [reflexivity|exact I].
    + destruct (IH (Some (default (keys fs) init))) as (c & Hc & Hinit).
      exists c. split; [exact Hc|]. destruct c as [l|i]; [exact I|].
      rewrite Hinit, (universe_cons_dict it rest fs Hfs).
      destruct init; reflexivity.
Qed.

(** X17. With direction ["forward"], an [n] within the bounds and a trace
    whose records all hold a dictionary of feature scores,
    [select_n_features] raises nothing and returns a list, where direction
    ["backward"] can return [None]. *)
Theorem select_n_forward_succeeds iteration rest n total :
  py_len (feature_scores iteration) = Ok total →
  1 ≤ n ≤ total →
  Forall (λ r, is_Some (as_dict (feature_scores r))) (iteration :: rest) →
  ∃ l, select_n_features (iteration :: rest) n "forward" = Ok (Some l).
Proof.
  intros Hlen Hn Hall. rewrite (select_n_forward_checks _ _ _ _ Hlen Hn).
  destruct (select_n_forward_scan_dicts n total _ None Hall) as (c & -> & Hc).
  destruct c as [l|i]; cbn; [eexists; reflexivity|].
  apply Forall_inv in Hall. destruct Hall as [fs Hfs].
  apply as_dict_Some in Hfs.
  rewrite Hc, (universe_cons_dict iteration rest fs Hfs).
  eexists. reflexivity.
Qed.

Lemma select_n_forward_succeeds_witness :
  Forall (λ r, is_Some (as_dict (feature_scores r)))
    (rec_of 0 [(0, f0_5); (1, f0_3)] :: [rec_of 0 []]) ∧
  ∃ l, select_n_features (rec_of 0 [(0, f0_5); (1, f0_3)] :: [rec_of 0 []])
         1 "forward" = Ok (Some l).
Proof.
  assert (Forall (λ r, is_Some (as_dict (feature_scores r)))
            (rec_of 0 [(0, f0_5); (1, f0_3)] :: [rec_of 0 []])) as Hall
    by (repeat constructor; eexists; reflexivity).
  split; [exact Hall|].
  apply (select_n_forward_succeeds (rec_of 0 [(0, f0_5); (1, f0_3)])
           [rec_of 0 []] 1 2 eq_refl); [lia|exact Hall].
Defined.

(** ** What [select_n_features] does not look at *)

Lemma for_loop_same_scores {S R}
    (body : S → IterationResult → result (control S R)) :
  (∀ st x y, feature_scores x = feature_scores y → body st x = body st y) →
  ∀ l l' st,
    feature_scores <$> l = feature_scores <$> l' →
    for_loop body st l = for_loop body st l'.
Proof.
  intros Hbody. induction l as [|x l IH]; intros [|y l'] st Heq;
    try discriminate; [reflexivity|].
  cbn in Heq. injection Heq as Hxy Hrest. cbn [for_loop].
  rewrite (Hbody st x y Hxy).
  destruct (body st y) as [[v|st1]|e]; cbn; auto.
Qed.

(** X18. [select_n_features] does not read the ["TE"] entries: two traces
    with the same feature scores, record by record, give the same outcome,
    also when a ["TE"] is not a number. *)
Theorem select_n_features_ignores_TE results results' n direction :
  feature_scores <$> results = feature_scores <$> results' →
  select_n_features results n direction
    = select_n_features results' n direction.
Proof.
  intros Heq. unfold select_n_features.
  destruct (valid_direction direction); [|reflexivity]. cbn -[for_loop].
  assert (feature_scores <$> head results = feature_scores <$> head results')
    as Hhead.
  { destruct results, results'; try discriminate; [reflexivity|].
    cbn in *. injection Heq as -> _. reflexivity. }
  destruct (head results) as [first|], (head results') as [first'|];
    try discriminate; [|reflexivity].
  injection Hhead as Hfirst. cbn -[for_loop]. rewrite Hfirst.
  destruct (py_len (feature_scores first')) as [total|]; [|reflexivity].
  cbn -[for_loop].
  destruct (n <=? total); [|reflexivity]. cbn -[for_loop].
  destruct (n >? 0); [|reflexivity]. cbn -[for_loop].
  rewrite (for_loop_same_scores (select_n_backward_body n)
             ltac:(intros st x y Hxy; unfold select_n_backward_body;
                   rewrite Hxy; reflexivity) results results' tt Heq).
  rewrite (for_loop_same_scores (select_n_forward_body n total)
             ltac:(intros st x y Hxy; unfold select_n_forward_body;
                   rewrite Hxy; reflexivity) results results' None Heq).
  reflexivity.
Qed.

Lemma select_n_features_ignores_TE_witness :
  select_n_features shrinking_trace 1 "forward"
    = select_n_features
        [{| TE := VNone; feature_scores := VDict [(0, f0_5); (1, f0_3)] |};
         {| TE := VStr "x"; feature_scores := VDict [(0, f0_5)] |};
         {| TE := VInt 9; feature_scores := VDict [] |}] 1 "forward".
Proof.
  apply (select_n_features_ignores_TE shrinking_trace
           [{| TE := VNone; feature_scores := VDict [(0, f0_5); (1, f0_3)] |};
            {| TE := VStr "x"; feature_scores := VDict [(0, f0_5)] |};
            {| TE := VInt 9; feature_scores := VDict [] |}] 1 "forward").
  reflexivity.
Defined.





